(** * SQuery: the handle abstraction and its batch dispatcher

    A shallow embedding of [SQuery.js] (the [$] entry point, the [Query]
    constructor, the methods of [Query.prototype] that read and write
    styles, attributes, text, markup and classes, the [parent] and
    [removeChild] traversals, and [$.forQuery]) over a model of the
    JavaScript values the library handles and of the document tree it
    mutates.

    Conventions of the model:
    - numbers are the integers ([Z]); a conversion to number that yields
      [NaN] is written [NaN], and fractional numbers are not represented;
    - strings are sequences of code units ([string]);
    - the script runs in sloppy mode (it assigns the undeclared global [S]
      on its first line), so writing a property of a primitive is silently
      ignored;
    - the document tree is a store of nodes with parent and child links and
      attribute maps; what the browser computes on its own (selector
      matching, computed style, text and markup of a subtree, parsing of
      style declarations, which attribute names are legal, the own
      properties of built-in prototypes) is a field of [Host], and every
      theorem holds for every host;
    - executions that leave this fragment (a user-defined conversion of an
      object to a primitive, a property of a foreign object) end in
      [Unsupported], which is neither a result nor an exception. *)

From Stdlib Require Import ZArith Ascii.
From stdpp Require Import base strings list gmap pretty.

Open Scope Z_scope.

#[local] Set Warnings "-register-all".

(** ** JavaScript values *)

Module JS.

Definition node := nat.

(** The global [document]. *)
Definition document : node := 0%nat.

Inductive value : Type :=
  | VUndefined
  | VNull
  | VBool (b : bool)
  | VNum (n : Z)
  | VStr (s : string)
  | VFunc (name : string) (arity : nat)
      (* a callable, with its [length] *)
  | VNode (x : node)
      (* a DOM node that carries no [length] property *)
  | VArray (l : list value)
      (* an [Array] *)
  | VList (l : list value)
      (* a static array-like host object (NodeList, HTMLCollection) *)
  | VObject (kv : list (string * value))
      (* a plain object, by its own enumerable properties in [for-in] order *)
  | VQuery (id : nat) (len : value) (items : list value) (selector : value).
      (* an instance of [Query]: its identity, [this.length], the indexed
         entries [this[0]], [this[1]], ... and [this.selector] *)

Inductive exn : Type :=
  | Thrown (v : value)            (* [throw v] in the library itself *)
  | TypeError                     (* raised by the engine *)
  | DOMException (name : string). (* raised by a DOM operation *)

Inductive number : Type :=
  | NaN
  | Int (z : Z).

(** [typeof v] *)
Definition typeof (v : value) : string :=
  match v with
  | VUndefined => "undefined"
  | VBool _ => "boolean"
  | VNum _ => "number"
  | VStr _ => "string"
  | VFunc _ _ => "function"
  | VNull | VNode _ | VArray _ | VList _ | VObject _ | VQuery _ _ _ _ => "object"
  end.

(** ToBoolean *)
Definition truthy (v : value) : bool :=
  match v with
  | VUndefined | VNull => false
  | VBool b => b
  | VNum n => negb (n =? 0)
  | VStr s => negb (String.eqb s "")
  | _ => true
  end.

(** [a || b] *)
Definition js_or (a b : value) : value := if truthy a then a else b.

(** [v == undefined] (equally [v == null]) *)
Definition eq_undefined (v : value) : bool :=
  match v with
  | VUndefined | VNull => true
  | _ => false
  end.

(** [v instanceof Object] *)
Definition instanceof_Object (v : value) : bool :=
  match v with
  | VFunc _ _ | VNode _ | VArray _ | VList _ | VObject _ | VQuery _ _ _ _ => true
  | _ => false
  end.

(** [v instanceof Array] *)
Definition instanceof_Array (v : value) : bool :=
  match v with
  | VArray _ => true
  | _ => false
  end.

(** [v instanceof Query] *)
Definition instanceof_Query (v : value) : bool :=
  match v with
  | VQuery _ _ _ _ => true
  | _ => false
  end.

(** [v == document]: two objects are equal when they are the same object;
    [null] and [undefined] equal no object; a number or boolean is compared
    with the document converted to a number, which is [NaN]. A string
    operand would be compared with the host's rendering of the document:
    [None]. *)
Definition eq_document (v : value) : option bool :=
  match v with
  | VNode x => Some (bool_decide (x = document))
  | VStr _ => None
  | _ => Some false
  end.

(** [v == []]: the right operand is a freshly allocated array, an object
    distinct from every object that already exists, so an object operand
    is never equal to it; a primitive operand is compared with the empty
    string the array converts to. *)
Definition eq_fresh_array (v : value) : bool :=
  match v with
  | VBool b => negb b
  | VNum n => n =? 0
  | VStr s => String.eqb s ""
  | _ => false
  end.

(** ToNumber on the values whose conversion runs no user code and parses
    no string. *)
Definition to_number (v : value) : option number :=
  match v with
  | VUndefined => Some NaN
  | VNull => Some (Int 0)
  | VBool b => Some (Int (if b then 1 else 0))
  | VNum n => Some (Int n)
  | _ => None
  end.

(** The number of rounds of [for (let i = 0; i < bound; i++)]. *)
Definition iterations (bound : value) : option nat :=
  match to_number bound with
  | Some NaN => Some 0%nat
  | Some (Int z) => Some (Z.to_nat z)
  | None => None
  end.

(** [v >= k] and [v > k] for a numeric literal [k] *)
Definition ge_lit (v : value) (k : Z) : option bool :=
  match to_number v with
  | Some NaN => Some false
  | Some (Int z) => Some (k <=? z)
  | None => None
  end.

Definition gt_lit (v : value) (k : Z) : option bool :=
  match to_number v with
  | Some NaN => Some false
  | Some (Int z) => Some (k <? z)
  | None => None
  end.

(** ToString; an array joins its entries with a comma, [null] and
    [undefined] entries giving the empty string. Other objects may run
    user code or print host-specific text: [None]. *)
Fixpoint to_string (v : value) : option string :=
  match v with
  | VUndefined => Some "undefined"
  | VNull => Some "null"
  | VBool b => Some (if b then "true" else "false")
  | VNum n => Some (pretty n)
  | VStr s => Some s
  | VArray l =>
      (fix join (l : list value) : option string :=
         match l with
         | [] => Some ""
         | x :: rest =>
             match (match x with
                    | VUndefined | VNull => Some ""
                    | _ => to_string x
                    end) with
             | Some s =>
                 match rest with
                 | [] => Some s
                 | _ => match join rest with
                        | Some r => Some (s +:+ "," +:+ r)
                        | None => None
                        end
                 end
             | None => None
             end
         end) l
  | _ => None
  end.

(** [v == lit] for a string literal [lit] that does not spell a number
    (such as ["string"]): numbers and booleans compare through [NaN]. *)
Definition eq_word (v : value) (lit : string) : option bool :=
  match v with
  | VUndefined | VNull | VBool _ | VNum _ => Some false
  | VStr s => Some (String.eqb s lit)
  | VArray _ => match to_string v with
                | Some s => Some (String.eqb s lit)
                | None => None
                end
  | _ => None
  end.

Definition assoc (k : string) (kv : list (string * value)) : value :=
  match List.find (fun p => String.eqb (fst p) k) kv with
  | Some p => snd p
  | None => VUndefined
  end.

(** The character of [s] at position [i], as [s[i]] gives it. *)
Definition char_at (s : string) (i : nat) : value :=
  match String.get i s with
  | Some c => VStr (String c EmptyString)
  | None => VUndefined
  end.

(** [v.length]; [None] stands for the TypeError of reading a property of
    [null] or [undefined]. *)
Definition get_length (v : value) : option value :=
  match v with
  | VUndefined | VNull => None
  | VStr s => Some (VNum (Z.of_nat (String.length s)))
  | VFunc _ a => Some (VNum (Z.of_nat a))
  | VArray l | VList l => Some (VNum (Z.of_nat (length l)))
  | VObject kv => Some (assoc "length" kv)
  | VQuery _ len _ _ => Some len
  | VBool _ | VNum _ | VNode _ => Some VUndefined
  end.

(** [v[i]] for an index [i], on a value that is neither [null] nor
    [undefined]. *)
Definition get_index (v : value) (i : nat) : value :=
  match v with
  | VStr s => char_at s i
  | VArray l | VList l | VQuery _ _ l _ => default VUndefined (l !! i)
  | VObject kv => assoc (pretty i) kv
  | _ => VUndefined
  end.

(** The own enumerable properties a [for (name in v)] loop visits, with
    their values; objects that also inherit enumerable properties, and
    host objects, are not covered. *)
Definition for_in (v : value) : option (list (string * value)) :=
  match v with
  | VObject kv => Some kv
  | VArray l => Some (imap (fun i x => (pretty i, x)) l)
  | _ => None
  end.

End JS.

(** ** The document tree and the browser *)

Module Dom.
Import JS.

Inductive node_kind : Type :=
  | Element          (* an HTML element *)
  | Document         (* a document *)
  | CharacterData.   (* a text or comment node *)

Record node_data : Type := mk_node {
  kind : node_kind;
  parentNode : option node;
  childNodes : list node;
  attributes : gmap string string
}.

(** The state a call runs in: the node store, and the counter that gives
    each object created by [new Query] its identity. *)
Record dom_state : Type := mk_state {
  nodes : node -> node_data;
  next_object : nat
}.

(** What the browser decides. [select_all s root sel] is
    [root.querySelectorAll(sel)], [None] when the selector does not parse;
    [proto_has_own v name] is [v.__proto__.hasOwnProperty(name)] for a
    value [v] that is not a Query instance. *)
Class Host : Type := {
  select_all : dom_state -> node -> string -> option (list node);
  computed_style : dom_state -> node -> string -> string;
  style_set_property : dom_state -> node -> string -> string -> dom_state;
  inner_text : dom_state -> node -> string;
  set_inner_text : dom_state -> node -> string -> dom_state;
  inner_html : dom_state -> node -> string;
  set_inner_html : dom_state -> node -> string -> dom_state;
  valid_attribute_name : string -> bool;
  proto_has_own : value -> string -> bool
}.

(** *** Results and the state monad *)

Inductive outcome (A : Type) : Type :=
  | Return (a : A)
  | Throw (e : exn)
  | Unsupported.
Arguments Return {A} a.
Arguments Throw {A} e.
Arguments Unsupported {A}.

Definition M (A : Type) : Type := dom_state -> outcome A * dom_state.

Definition ret {A} (a : A) : M A := fun s => (Return a, s).

Definition bind {A B} (m : M A) (f : A -> M B) : M B := fun s =>
  match m s with
  | (Return a, s') => f a s'
  | (Throw e, s') => (Throw e, s')
  | (Unsupported, s') => (Unsupported, s')
  end.

Declare Scope js_scope.
Delimit Scope js_scope with js.
Notation "'let*' x ':=' m 'in' k" := (bind m (fun x => k))
  (at level 10, x name, m at level 100, k at level 200) : js_scope.
Notation "m '>>' k" := (bind m (fun _ => k))
  (at level 100, k at level 200, right associativity) : js_scope.
Open Scope js_scope.

Definition throw {A} (e : exn) : M A := fun s => (Throw e, s).
Definition unsupported {A} : M A := fun s => (Unsupported, s).
Definition get_state : M dom_state := fun s => (Return s, s).
Definition modify (f : dom_state -> dom_state) : M unit := fun s => (Return tt, f s).

(** An [option] whose [None] leaves the modelled fragment. *)
Definition supported {A} (o : option A) : M A :=
  match o with
  | Some a => ret a
  | None => unsupported
  end.

(** An [option] whose [None] is the TypeError of a property read on
    [null] or [undefined]. *)
Definition or_type_error {A} (o : option A) : M A :=
  match o with
  | Some a => ret a
  | None => throw TypeError
  end.

(** Run [f] on each entry, in order. *)
Fixpoint for_each {A} (f : A -> M unit) (l : list A) : M unit :=
  match l with
  | [] => ret tt
  | a :: l' => f a >> for_each f l'
  end.

(** Run [body], [n] times. *)
Fixpoint repeat_times (n : nat) (body : M unit) : M unit :=
  match n with
  | O => ret tt
  | S n' => body >> repeat_times n' body
  end.

(** *** The node store *)

Definition update_node (x : node) (f : node_data -> node_data)
    (s : dom_state) : dom_state :=
  {| nodes := fun y => if decide (y = x) then f (nodes s y) else nodes s y;
     next_object := next_object s |}.

(** The state after one more object has been created. *)
Definition allocated (s : dom_state) : dom_state :=
  {| nodes := nodes s; next_object := S (next_object s) |}.

Definition with_attribute (k v : string) (d : node_data) : node_data :=
  {| kind := kind d; parentNode := parentNode d; childNodes := childNodes d;
     attributes := <[k := v]> (attributes d) |}.

Definition with_parent (p : option node) (d : node_data) : node_data :=
  {| kind := kind d; parentNode := p; childNodes := childNodes d;
     attributes := attributes d |}.

Definition without_child (c : node) (d : node_data) : node_data :=
  {| kind := kind d; parentNode := parentNode d;
     childNodes := filter (fun y => y ≠ c) (childNodes d);
     attributes := attributes d |}.

Definition attribute (s : dom_state) (x : node) (k : string) : option string :=
  attributes (nodes s x) !! k.

Definition is_element (s : dom_state) (x : node) : bool :=
  match kind (nodes s x) with
  | Element => true
  | _ => false
  end.

(** [x.children]: the child nodes that are elements. *)
Definition children (s : dom_state) (x : node) : list node :=
  filter (fun c => is_element s c = true) (childNodes (nodes s x)).

(** [x.remove()]: nothing without a parent, else [x] leaves its parent's
    child list and loses its parent link. *)
Definition remove_node (x : node) (s : dom_state) : dom_state :=
  match parentNode (nodes s x) with
  | None => s
  | Some p => update_node x (with_parent None) (update_node p (without_child x) s)
  end.



(** *** How a value answers a property access *)

Inductive receiver : Type :=
  | RNullish                   (* null or undefined: any access throws *)
  | RElement (x : node)
  | RDocument (x : node)
  | RCharacterData (x : node)
  | RPrimitive                 (* boolean, number, string: no such property *)
  | RObject.                   (* any other object: its own and inherited
                                  properties are not modelled *)

Definition receiver_of (s : dom_state) (v : value) : receiver :=
  match v with
  | VUndefined | VNull => RNullish
  | VBool _ | VNum _ | VStr _ => RPrimitive
  | VFunc _ _ | VArray _ | VList _ | VObject _ | VQuery _ _ _ _ => RObject
  | VNode x => match kind (nodes s x) with
               | Element => RElement x
               | Document => RDocument x
               | CharacterData => RCharacterData x
               end
  end.

(** A DOMString argument: ToString. *)
Definition dom_string (v : value) : M string := supported (to_string v).

(** A DOMString argument declared LegacyNullToEmptyString. *)
Definition dom_string_null_empty (v : value) : M string :=
  match v with
  | VNull => ret ""
  | _ => supported (to_string v)
  end.

(** ASCII lower-casing, as attribute names get in an HTML document. *)
Definition lower_ascii (c : ascii) : ascii :=
  let n := nat_of_ascii c in
  if ((65 <=? n) && (n <=? 90))%nat then ascii_of_nat (n + 32) else c.

Fixpoint lower_case (s : string) : string :=
  match s with
  | EmptyString => EmptyString
  | String c s' => String (lower_ascii c) (lower_case s')
  end.

(** *** Class tokens (DOMTokenList over the [class] attribute) *)

Definition is_ascii_whitespace (c : ascii) : bool :=
  let n := nat_of_ascii c in
  ((n =? 9) || (n =? 10) || (n =? 12) || (n =? 13) || (n =? 32))%nat.

Fixpoint contains_whitespace (t : string) : bool :=
  match t with
  | EmptyString => false
  | String c t' => is_ascii_whitespace c || contains_whitespace t'
  end.

(** Split on ASCII whitespace; [cur] is the token being read. *)
Fixpoint split_whitespace (cur s : string) : list string :=
  match s with
  | EmptyString => match cur with
                   | EmptyString => []
                   | _ => [cur]
                   end
  | String c s' =>
      if is_ascii_whitespace c
      then match cur with
           | EmptyString => split_whitespace EmptyString s'
           | _ => cur :: split_whitespace EmptyString s'
           end
      else split_whitespace (cur +:+ String c EmptyString) s'
  end.

Definition set_append (set : list string) (t : string) : list string :=
  if bool_decide (t ∈ set) then set else set ++ [t].

Definition set_remove (set : list string) (t : string) : list string :=
  filter (fun u => u ≠ t) set.

(** The ordered set parser and serializer. *)
Definition parse_tokens (v : string) : list string :=
  foldl set_append [] (split_whitespace EmptyString v).

Definition serialize_tokens (set : list string) : string :=
  String.concat " " set.

Definition class_tokens (s : dom_state) (x : node) : list string :=
  parse_tokens (default "" (attribute s x "class")).

(** The update steps: an element without a class attribute and with no
    token keeps no attribute; otherwise the attribute is rewritten. *)
Definition update_tokens (x : node) (set : list string)
    (s : dom_state) : dom_state :=
  match attribute s x "class", set with
  | None, [] => s
  | _, _ => update_node x (with_attribute "class" (serialize_tokens set)) s
  end.

(** Appending a token to, and removing one from, the class of [x]. *)
Definition add_token (x : node) (t : string) (s : dom_state) : dom_state :=
  update_tokens x (set_append (class_tokens s x) t) s.

Definition remove_token (x : node) (t : string) (s : dom_state) : dom_state :=
  update_tokens x (set_remove (class_tokens s x) t) s.

Definition check_token (t : string) : M unit :=
  if String.eqb t "" then throw (DOMException "SyntaxError")
  else if contains_whitespace t then throw (DOMException "InvalidCharacterError")
  else ret tt.

(** *** The DOM calls the library makes, on an arbitrary receiver

    A member that the receiver lacks reads as [undefined], and calling or
    indexing [undefined] throws TypeError; nodes are taken to carry no
    property added by scripts. *)

Section Calls.
Context `{Host}.

Definition node_or_null (o : option node) : value :=
  match o with
  | Some p => VNode p
  | None => VNull
  end.

(** [getComputedStyle(dom).getPropertyValue(name)]; the argument of
    [getComputedStyle] must be an element. *)
Definition getComputedStyle_getPropertyValue (dom : value) (name : string) : M value :=
  let* s := get_state in
  match receiver_of s dom with
  | RElement x => ret (VStr (computed_style s x name))
  | _ => throw TypeError
  end.

(** [dom.style.setProperty(name, value)] *)
Definition style_setProperty (dom name value : value) : M unit :=
  let* s := get_state in
  match receiver_of s dom with
  | RElement x =>
      let* n := dom_string name in
      let* v := dom_string_null_empty value in
      modify (fun s => style_set_property s x n v)
  | RObject => unsupported
  | _ => throw TypeError
  end.

(** [dom.getAttribute(name)] *)
Definition getAttribute (dom : value) (name : string) : M value :=
  let* s := get_state in
  match receiver_of s dom with
  | RElement x =>
      ret (match attribute s x (lower_case name) with
           | Some v => VStr v
           | None => VNull
           end)
  | RObject => unsupported
  | _ => throw TypeError
  end.

(** [dom.setAttribute(name, value)] *)
Definition setAttribute (dom name value : value) : M unit :=
  let* s := get_state in
  match receiver_of s dom with
  | RElement x =>
      let* n := dom_string name in
      let* v := dom_string value in
      if valid_attribute_name n
      then modify (update_node x (with_attribute (lower_case n) v))
      else throw (DOMException "InvalidCharacterError")
  | RObject => unsupported
  | _ => throw TypeError
  end.

(** [dom.innerText] and [dom.innerText = value] *)
Definition get_innerText (dom : value) : M value :=
  let* s := get_state in
  match receiver_of s dom with
  | RNullish => throw TypeError
  | RElement x => ret (VStr (inner_text s x))
  | RObject => unsupported
  | _ => ret VUndefined
  end.

Definition set_innerText (dom value : value) : M unit :=
  let* s := get_state in
  match receiver_of s dom with
  | RNullish => throw TypeError
  | RElement x =>
      let* v := dom_string_null_empty value in
      modify (fun s => set_inner_text s x v)
  | RPrimitive => ret tt
  | _ => unsupported
  end.

(** [dom.innerHTML] and [dom.innerHTML = value] *)
Definition get_innerHTML (dom : value) : M value :=
  let* s := get_state in
  match receiver_of s dom with
  | RNullish => throw TypeError
  | RElement x => ret (VStr (inner_html s x))
  | RObject => unsupported
  | _ => ret VUndefined
  end.

Definition set_innerHTML (dom value : value) : M unit :=
  let* s := get_state in
  match receiver_of s dom with
  | RNullish => throw TypeError
  | RElement x =>
      let* v := dom_string_null_empty value in
      modify (fun s => set_inner_html s x v)
  | RPrimitive => ret tt
  | _ => unsupported
  end.

(** [dom.className] and [dom.className = value]: the [class] attribute *)
Definition get_className (dom : value) : M value :=
  let* s := get_state in
  match receiver_of s dom with
  | RNullish => throw TypeError
  | RElement x => ret (VStr (default "" (attribute s x "class")))
  | RObject => unsupported
  | _ => ret VUndefined
  end.

Definition set_className (dom value : value) : M unit :=
  let* s := get_state in
  match receiver_of s dom with
  | RNullish => throw TypeError
  | RElement x =>
      let* v := dom_string value in
      modify (update_node x (with_attribute "class" v))
  | RPrimitive => ret tt
  | _ => unsupported
  end.

(** [dom.classList.add(token)] *)
Definition classList_add (dom token : value) : M unit :=
  let* s := get_state in
  match receiver_of s dom with
  | RElement x =>
      let* t := dom_string token in
      check_token t >>
      modify (add_token x t)
  | RObject => unsupported
  | _ => throw TypeError
  end.

(** [dom.classList.remove(token)] *)
Definition classList_remove (dom token : value) : M unit :=
  let* s := get_state in
  match receiver_of s dom with
  | RElement x =>
      let* t := dom_string token in
      check_token t >>
      modify (remove_token x t)
  | RObject => unsupported
  | _ => throw TypeError
  end.

(** [dom.classList.toggle(token)] *)
Definition classList_toggle (dom token : value) : M value :=
  let* s := get_state in
  match receiver_of s dom with
  | RElement x =>
      let* t := dom_string token in
      check_token t >>
      if bool_decide (t ∈ class_tokens s x)
      then modify (remove_token x t) >> ret (VBool false)
      else modify (add_token x t) >> ret (VBool true)
  | RObject => unsupported
  | _ => throw TypeError
  end.

(** [dom.parentNode] *)
Definition get_parentNode (dom : value) : M value :=
  let* s := get_state in
  match receiver_of s dom with
  | RNullish => throw TypeError
  | RElement x | RDocument x | RCharacterData x =>
      ret (node_or_null (parentNode (nodes s x)))
  | RPrimitive => ret VUndefined
  | RObject => unsupported
  end.

(** [dom.querySelectorAll(selector)] *)
Definition querySelectorAll (dom : value) (selector : string) : M (list node) :=
  let* s := get_state in
  match receiver_of s dom with
  | RElement x | RDocument x =>
      match select_all s x selector with
      | Some l => ret l
      | None => throw (DOMException "SyntaxError")
      end
  | RObject => unsupported
  | _ => throw TypeError
  end.

(** [dom.querySelector(selector)]: the first match, or [null] *)
Definition querySelector (dom : value) (selector : string) : M value :=
  let* l := querySelectorAll dom selector in
  ret (node_or_null (head l)).

(** [dom.removeChild[index]]: the member [removeChild] of a node is a
    function, and indexing a function by a number designates no
    property; nothing is called. *)
Definition removeChild_member (dom : value) : M unit :=
  let* s := get_state in
  match receiver_of s dom with
  | RElement _ | RDocument _ | RCharacterData _ => ret tt
  | RObject => unsupported
  | _ => throw TypeError
  end.

(** [dom.children], for the reads [dom.children.length] and
    [dom.children[0]] *)
Definition get_children (dom : value) : M (list node) :=
  let* s := get_state in
  match receiver_of s dom with
  | RElement x | RDocument x => ret (children s x)
  | RObject => unsupported
  | _ => throw TypeError
  end.

(** [dom.children[0].remove()] *)
Definition remove_first_child (dom : value) : M unit :=
  let* l := get_children dom in
  match l with
  | c :: _ => modify (remove_node c)
  | [] => throw TypeError
  end.

End Calls.

End Dom.

(** ** The library *)

Module SQuery.
Import JS Dom.

(** An instance of [Query]. *)
Record query : Type := mk_query {
  identity : nat;
  length_ : value;      (* [this.length] *)
  items : list value;   (* [this[0]], [this[1]], ... *)
  selector_ : value     (* [this.selector], [undefined] when never set *)
}.

Definition as_value (q : query) : value :=
  VQuery (identity q) (length_ q) (items q) (selector_ q).

(** [this[i]] *)
Definition item (this : query) (i : nat) : value :=
  default VUndefined (items this !! i).

(** [arguments[i]] *)
Definition argument (arguments : list value) (i : nat) : value :=
  default VUndefined (arguments !! i).

(** The string a value holds once [typeof] has answered ["string"]. *)
Definition string_of (v : value) : string :=
  match v with
  | VStr s => s
  | _ => ""
  end.

Definition is_upper (c : ascii) : bool :=
  let n := nat_of_ascii c in ((65 <=? n) && (n <=? 90))%nat.

(** [/[A-Z]/g.test(key)] on a fresh expression *)
Fixpoint has_upper (key : string) : bool :=
  match key with
  | EmptyString => false
  | String c k => is_upper c || has_upper k
  end.

(** [key.replace(/[A-Z]/g, m => "-" + m.toLowerCase())] *)
Fixpoint kebab (key : string) : string :=
  match key with
  | EmptyString => EmptyString
  | String c k =>
      if is_upper c then String "-" (String (lower_ascii c) (kebab k))
      else String c (kebab k)
  end.

(** The own properties of [Query.prototype], in the order of the source. *)
Definition Query_prototype : list string :=
  [ "each"; "isEvent"; "on"; "bind"; "css"; "attr"; "text"; "html"; "class";
    "addClass"; "delClass"; "toggle"; "parent"; "parentAll"; "children";
    "addFirstChild"; "addLastChild"; "insertChild"; "removeChild";
    "firstChild"; "lastChild"; "child"; "first"; "last"; "eq"; "prevNode";
    "prevNodeAll"; "nextNode"; "nextNodeAll"; "insertElementBefore";
    "insertElementAfter"; "dom" ].

Definition method : Type := query -> list value -> M value.

Section Library.
Context `{Host}.

(** The members of [Query.prototype] that are called by [$.forQuery] but
    whose bodies are not embedded here ([on], [bind], the insertions, the
    child and sibling traversals), by name. *)
Variable member : string -> method.

(** [new]: the identity of the object under construction. *)
Definition new_object : M nat := fun s => (Return (next_object s), allocated s).

(** [new Query(dom, selector)] *)
Definition Query (dom selector : value) : M query :=
  let* id := new_object in
  let* len := (if truthy dom then or_type_error (get_length dom)
               else ret (VNum 0)) in
  let* single := (if String.eqb (typeof dom) "object"
                  then let* l := or_type_error (get_length dom) in
                       ret (eq_undefined l)
                  else ret false) in
  if single then ret (mk_query id (VNum 1) [dom] VUndefined)
  else
    let* n := supported (iterations len) in
    ret (mk_query id len (map (get_index dom) (seq 0 n))
           (js_or selector (VStr ""))).

(** [$(nodeSelector)] *)
Definition dollar (nodeSelector : value) : M query :=
  let* node_like := (if String.eqb (typeof nodeSelector) "object"
                     then let* l := or_type_error (get_length nodeSelector) in
                          ret (eq_undefined l)
                     else ret false) in
  if node_like then Query nodeSelector VNull
  else
    let* list_like := (if String.eqb (typeof nodeSelector) "object"
                       then let* l := or_type_error (get_length nodeSelector) in
                            supported (ge_lit l 1)
                       else ret false) in
    if list_like then Query nodeSelector VNull
    else if negb (String.eqb (typeof nodeSelector) "string")
    then throw (Thrown (VStr "请传入合法 selector 字符和 dom 对象！"))
    else
      let* s := get_state in
      match select_all s document (string_of nodeSelector) with
      | Some l => Query (VList (map VNode l)) nodeSelector
      | None => throw (DOMException "SyntaxError")
      end.

(** [css(pattern)] *)
Definition css (this : query) (arguments : list value) : M value :=
  let pattern := argument arguments 0 in
  let dom := item this 0 in
  if String.eqb (typeof pattern) "string" && (length arguments =? 1)%nat
  then getComputedStyle_getPropertyValue dom (string_of pattern)
  else if instanceof_Object pattern && (length arguments =? 1)%nat
  then
    let* props := supported (for_in pattern) in
    for_each (fun p =>
                let key := if has_upper (fst p) then kebab (fst p) else fst p in
                style_setProperty dom (VStr key) (snd p)) props >>
    ret (as_value this)
  else
    let name := argument arguments 0 in
    let value := argument arguments 1 in
    let* e := supported (eq_word name "string") in
    let isArg := if truthy (js_or (VBool e) (VStr "number")) then true else false in
    if (length arguments =? 2)%nat && isArg
    then style_setProperty dom name value >> ret (as_value this)
    else ret VUndefined.

(** [attr(attribute)] *)
Definition attr (this : query) (arguments : list value) : M value :=
  let attribute := argument arguments 0 in
  let dom := item this 0 in
  if String.eqb (typeof attribute) "string" && (length arguments =? 1)%nat
  then getAttribute dom (string_of attribute)
  else if instanceof_Object attribute && (length arguments =? 1)%nat
  then
    let* props := supported (for_in attribute) in
    for_each (fun p => setAttribute dom (VStr (fst p)) (snd p)) props >>
    ret (as_value this)
  else
    let name := argument arguments 0 in
    let value := argument arguments 1 in
    let* e := supported (eq_word name "string") in
    let isArg := if truthy (js_or (VBool e) (VStr "number")) then true else false in
    if (length arguments =? 2)%nat && isArg
    then setAttribute dom name value >> ret (as_value this)
    else ret VUndefined.

(** [text(text)] *)
Definition text (this : query) (arguments : list value) : M value :=
  let text := argument arguments 0 in
  let dom := item this 0 in
  if (1 <=? length arguments)%nat
  then set_innerText dom text >> ret (as_value this)
  else get_innerText dom.

(** [html(value)] *)
Definition html (this : query) (arguments : list value) : M value :=
  let value := argument arguments 0 in
  let dom := item this 0 in
  if (1 <=? length arguments)%nat
  then set_innerHTML dom value >> ret (as_value this)
  else get_innerHTML dom.

(** [class(taxon)] *)
Definition class (this : query) (arguments : list value) : M value :=
  let taxon := argument arguments 0 in
  let dom := item this 0 in
  if eq_undefined taxon
  then get_className dom
  else if negb (eq_undefined taxon) && String.eqb (typeof taxon) "string"
  then set_className dom taxon >> ret (as_value this)
  else ret VUndefined.

(** The entries a [for (... of v)] loop visits, for an Array [v]. *)
Definition array_entries (v : value) : list value :=
  match v with
  | VArray l => l
  | _ => []
  end.

(** [addClass(taxon)] *)
Definition addClass (this : query) (arguments : list value) : M value :=
  let taxon := argument arguments 0 in
  let dom := item this 0 in
  if (length arguments <=? 0)%nat
  then throw (Thrown (VStr "请传入要添加的类名"))
  else if (length arguments =? 1)%nat && String.eqb (typeof taxon) "string"
  then classList_add dom taxon >> ret (as_value this)
  else
    for_each (fun v =>
                if String.eqb (typeof v) "string" then classList_add dom v
                else if instanceof_Array v
                then for_each (classList_add dom) (array_entries v)
                else ret tt) arguments >>
    ret (as_value this).

(** [delClass(taxon)] *)
Definition delClass (this : query) (arguments : list value) : M value :=
  let taxon := argument arguments 0 in
  let dom := item this 0 in
  if (length arguments <=? 0)%nat
  then set_className dom (VStr "") >> ret (as_value this)
  else if (length arguments =? 1)%nat && String.eqb (typeof taxon) "string"
  then classList_remove dom taxon >> ret (as_value this)
  else
    for_each (fun v =>
                if String.eqb (typeof v) "string" then classList_remove dom v
                else if instanceof_Array v
                then for_each (classList_remove dom) (array_entries v)
                else ret tt) arguments >>
    ret (as_value this).

(** [toggle(taxon)] *)
Definition toggle (this : query) (arguments : list value) : M value :=
  let taxon := argument arguments 0 in
  let dom := item this 0 in
  if (length arguments <=? 0)%nat
  then throw (Thrown (VStr "请传入参数！"))
  else if negb (String.eqb (typeof (argument arguments 0)) "string")
  then throw (Thrown (VStr "仅支持字符串类型的参数！"))
  else classList_toggle dom taxon >> ret (as_value this).

(** The loop of [parent]: [inl d] when [return domParent] leaves the loop
    at the document, [inr d] when the loop runs out with [domParent = d]. *)
Fixpoint parent_walk (rounds : nat) (domParent : value) : M (value + value) :=
  match rounds with
  | O => ret (inr domParent)
  | S rounds' =>
      let* at_document := supported (eq_document domParent) in
      if at_document then ret (inl domParent)
      else let* p := get_parentNode domParent in
           parent_walk rounds' p
  end.

(** [parent(selector)] *)
Definition parent (this : query) (arguments : list value) : M value :=
  let selector := argument arguments 0 in
  let dom := item this 0 in
  let* by_number :=
    (if negb (eq_undefined selector)
        && String.eqb (typeof (argument arguments 0)) "number"
     then supported (gt_lit selector 1)
     else ret false) in
  if by_number
  then
    let* rounds := supported (iterations selector) in
    let* r := parent_walk rounds dom in
    match r with
    | inl d => ret d
    | inr d => let* q := Query d VNull in ret (as_value q)
    end
  else if negb (eq_undefined selector) && String.eqb (typeof selector) "string"
  then
    let* p := get_parentNode dom in
    let* g := get_parentNode p in
    let* selectorParent := querySelector g (string_of selector) in
    let* q := Query selectorParent selector in
    ret (as_value q)
  else
    let* p := get_parentNode dom in
    let* q := Query p VNull in
    ret (as_value q).

(** [removeChild(index)] *)
Definition removeChild (this : query) (arguments : list value) : M value :=
  let index := argument arguments 0 in
  let dom := item this 0 in
  if String.eqb (typeof index) "number"
  then
    removeChild_member dom >>
    let* q := Query dom VNull in ret (as_value q)
  else if String.eqb (typeof index) "string"
  then
    let* indexDom := querySelectorAll dom (string_of index) in
    for_each (fun x => modify (remove_node x)) indexDom >>
    let* q := Query dom VNull in ret (as_value q)
  else if eq_undefined index
  then
    let* l := get_children dom in
    let childLength := length l in
    repeat_times childLength (remove_first_child dom) >>
    let* q := Query dom VNull in ret (as_value q)
  else throw (Thrown (VStr "只接受数字以及字符串！")).

(** [first()] *)
Definition first (this : query) (arguments : list value) : M value :=
  let* q := Query (item this 0) VNull in ret (as_value q).

(** [this[n]] for a number [n] that may be negative or [NaN] *)
Definition item_at (this : query) (n : number) : value :=
  match n with
  | Int z => if 0 <=? z then item this (Z.to_nat z) else VUndefined
  | NaN => VUndefined
  end.

(** [last()] *)
Definition last (this : query) (arguments : list value) : M value :=
  let* n := supported (to_number (length_ this)) in
  let* q := Query (item_at this (match n with
                                 | Int z => Int (z - 1)
                                 | NaN => NaN
                                 end)) VNull in
  ret (as_value q).

(** [eq(i)] *)
Definition eq (this : query) (arguments : list value) : M value :=
  let i := argument arguments 0 in
  let* ok := (if String.eqb (typeof i) "number" then supported (ge_lit i 0)
              else ret false) in
  if ok
  then let* n := supported (to_number i) in
       let* q := Query (item_at this n) VNull in ret (as_value q)
  else throw (Thrown (VStr "传入索引不合法！")).

(** [$.isQuery(value)] *)
Definition isQuery (v : value) : bool := instanceof_Query v.

(** [Querys.__proto__.hasOwnProperty(func)]; reading [__proto__] of
    [null] or [undefined] throws. *)
Definition proto_hasOwnProperty (Querys : value) (func : string) : M bool :=
  match Querys with
  | VUndefined | VNull => throw TypeError
  | VQuery _ _ _ _ => ret (bool_decide (func ∈ Query_prototype))
  | _ => ret (proto_has_own Querys func)
  end.

(** The cases of the [switch] of [$.forQuery], each with the method its
    loop calls. *)
Definition cases : list (string * method) :=
  [ ("on", member "on"); ("bind", member "bind"); ("css", css);
    ("attr", attr); ("text", text); ("html", html); ("class", class);
    ("addClass", addClass); ("delClass", delClass); ("toggle", toggle);
    ("addFirstChild", member "addFirstChild");
    ("addLastChild", member "addLastChild");
    ("insertChild", member "insertChild"); ("removeChild", removeChild);
    ("parent", parent); ("parentAll", member "parentAll");
    ("children", member "children"); ("firstChild", member "firstChild");
    ("lastChild", member "lastChild"); ("first", first); ("last", last);
    ("eq", eq); ("prevNode", member "prevNode");
    ("prevNodeAll", member "prevNodeAll"); ("nextNode", member "nextNode");
    ("nextNodeAll", member "nextNodeAll");
    ("insertElementBefore", member "insertElementBefore");
    ("insertElementAfter", member "insertElementAfter") ].

Definition case_of (func : string) : option method :=
  snd <$> List.find (fun c => String.eqb (fst c) func) cases.

(** The loop every case runs: for each index, wrap [Querys[i]] in a new
    Query, call the method with the forwarded arguments, push the result. *)
Fixpoint forQuery_loop (m : method) (Querys : value) (arg : list value)
    (indices : list nat) (dom : list value) : M (list value) :=
  match indices with
  | [] => ret dom
  | i :: rest =>
      let* thisDom := Query (get_index Querys i) VNull in
      let* r := m thisDom arg in
      forQuery_loop m Querys arg rest (dom ++ [r])
  end.

(** [$.forQuery(Querys, func, ...arg)] *)
Definition forQuery (Querys : value) (func : string) (arg : list value) : M value :=
  let dom := [] in
  let* own := proto_hasOwnProperty Querys func in
  let* dom :=
    (if own
     then match case_of func with
          | Some m =>
              let* len := or_type_error (get_length Querys) in
              let* n := supported (iterations len) in
              forQuery_loop m Querys arg (seq 0 n) dom
          | None => throw (Thrown (VStr "方法不存在！"))
          end
     else ret dom) in
  ret (if eq_fresh_array (VArray dom) then VStr "Error：出现意外错误!"
       else VArray dom).

End Library.

End SQuery.

(** ** What the statements below are phrased with *)

Module Spec.
Import JS Dom.

(** A class token the DOM accepts: not empty, no ASCII whitespace. *)
Definition token_ok (t : string) : Prop :=
  t ≠ "" ∧ contains_whitespace t = false.

(** The leaf strings of one argument of [addClass] or [delClass]: a
    string, or an array of strings. *)
Definition leaves_of (v : value) : list string :=
  match v with
  | VStr t => [t]
  | VArray l => map SQuery.string_of l
  | _ => []
  end.

Definition leaves (arguments : list value) : list string :=
  concat (map leaves_of arguments).

(** An argument that is a string, or an array whose entries are strings. *)
Definition class_argument (v : value) : Prop :=
  match v with
  | VStr _ => True
  | VArray l => Forall (fun e => String.eqb (typeof e) "string" = true) l
  | _ => False
  end.

(** The handle [new Query(x, null)] builds for a node [x] in state [s]. *)
Definition single (s : dom_state) (x : node) : SQuery.query :=
  SQuery.mk_query (next_object s) (VNum 1) [VNode x] VUndefined.


End Spec.

(** ** A small page and a host, for the concrete runs *)

Module Sample.
Import JS Dom.
#[local] Open Scope nat_scope.

(** A host in which no selector matches, styles are kept in the [style]
    attribute as written, and text and markup are not tracked. *)
#[local] Instance host : Host := {|
  select_all := fun _ _ _ => Some [];
  computed_style := fun _ _ _ => "";
  style_set_property := fun s x n v =>
    update_node x (with_attribute "style" (n +:+ ":" +:+ v)) s;
  inner_text := fun _ _ => "";
  set_inner_text := fun s _ _ => s;
  inner_html := fun _ _ => "";
  set_inner_html := fun s _ _ => s;
  valid_attribute_name := fun n => negb (String.eqb n "");
  proto_has_own := fun _ _ => false
|}.

(** No member beyond the embedded ones does anything. *)
Definition member : string -> SQuery.method := fun _ _ _ => ret VUndefined.

(** document > html (1) > body (2) > three elements (3, 4, 5); every
    other node is a detached element. *)
Definition page : dom_state :=
  {| nodes := fun x =>
       match x with
       | 0 => mk_node Document None [1] ∅
       | 1 => mk_node Element (Some 0) [2] ∅
       | 2 => mk_node Element (Some 1) [3; 4; 5] ∅
       | 3 | 4 | 5 => mk_node Element (Some 2) [] ∅
       | _ => mk_node Element None [] ∅
       end;
     next_object := 0 |}.

(** The handle of no match, and handles on the body and on its children. *)
Definition nothing : SQuery.query := SQuery.mk_query 7 (VNum 0%Z) [] (VStr ".none").
Definition body : SQuery.query := SQuery.mk_query 8 (VNum 1%Z) [VNode 2] VUndefined.
Definition trio : SQuery.query :=
  SQuery.mk_query 9 (VNum 3%Z) [VNode 3; VNode 4; VNode 5] (VStr "p").
Definition leaf : SQuery.query := SQuery.mk_query 10 (VNum 1%Z) [VNode 3] VUndefined.

End Sample.

(** ** The other members of [Query.prototype]

    The members below are embedded from the source like the ones above.
    The insertions ([addFirstChild], [addLastChild], [insertChild],
    [insertElementBefore], [insertElementAfter]) create nodes and parse
    markup, and the sibling walks read [nodeName] and [id]; they are not
    embedded. *)

Module Members.
Import JS Dom.

(** What the engine does with a function value and with a listener:
    [call_function f thisArg args] is [f.call(thisArg, ...args)] for a
    function [f]; [add_event_listener s x type callback options] is the
    store after [x.addEventListener(type, callback, options)]. *)
Class Engine : Type := {
  call_function : value -> value -> list value -> M value;
  add_event_listener : dom_state -> node -> string -> value -> value -> dom_state
}.

(** [list[n]] for a list of nodes and a number [n] *)
Definition node_at (l : list node) (n : number) : value :=
  match n with
  | Int z => if 0 <=? z then default VUndefined (VNode <$> l !! Z.to_nat z)
             else VUndefined
  | NaN => VUndefined
  end.

(** [list.filter((v, i) => i == n)] for a number [n] *)
Definition keep_index (l : list node) (n : number) : list node :=
  match n with
  | Int z => concat (imap (fun i v => if Z.of_nat i =? z then [v] else []) l)
  | NaN => []
  end.

(** [v.name] for the keys [on], [func] and [bool] of an event entry: a
    plain object answers with its own property, a primitive has none. *)
Definition get_member (v : value) (name : string) : M value :=
  match v with
  | VUndefined | VNull => throw TypeError
  | VObject kv => ret (assoc name kv)
  | VBool _ | VNum _ | VStr _ => ret VUndefined
  | _ => unsupported
  end.

Section Members.
Context `{Host} `{Engine}.

(** [dom.children] as a value: a host list, or [undefined] on a receiver
    without that member. *)
Definition get_children_value (dom : value) : M value :=
  let* s := get_state in
  match receiver_of s dom with
  | RNullish => throw TypeError
  | RElement x | RDocument x => ret (VList (map VNode (children s x)))
  | RObject => unsupported
  | _ => ret VUndefined
  end.

(** [dom.addEventListener(type, callback, options)]; every node is an
    event target. *)
Definition addEventListener (dom : value) (type : string)
    (callback options : value) : M unit :=
  let* s := get_state in
  match receiver_of s dom with
  | RElement x | RDocument x | RCharacterData x =>
      modify (fun s => add_event_listener s x type callback options)
  | RObject => unsupported
  | _ => throw TypeError
  end.

(** [callBack.call(thisArg, ...args)] *)
Definition function_call (callBack thisArg : value) (args : list value) : M value :=
  match callBack with
  | VFunc _ _ => call_function callBack thisArg args
  | VUndefined | VNull | VBool _ | VNum _ | VStr _ => throw TypeError
  | _ => unsupported
  end.

(** [Array.prototype.every.call(this, f)] from index [k] on, with
    [remaining] indices left below the length: an index that [this] has
    is passed to [f], and the first falsy answer ends the walk. *)
Fixpoint every_from (f : value -> nat -> M value) (this : SQuery.query)
    (k remaining : nat) : M bool :=
  match remaining with
  | O => ret true
  | S remaining' =>
      if bool_decide (k < length (SQuery.items this))%nat
      then let* testResult := f (SQuery.item this k) k in
           if truthy testResult
           then every_from f this (S k) remaining'
           else ret false
      else every_from f this (S k) remaining'
  end.

(** [each(callBack)] *)
Definition each (this : SQuery.query) (arguments : list value) : M value :=
  let callBack := SQuery.argument arguments 0 in
  let* len := supported (iterations (SQuery.length_ this)) in
  every_from (fun dom index =>
                function_call callBack dom [dom; VNum (Z.of_nat index)] >>
                ret VUndefined) this 0 len >>
  ret VUndefined.

(** [isEvent(on, func)] *)
Definition isEvent (this : SQuery.query) (arguments : list value) : M value :=
  let on := SQuery.argument arguments 0 in
  let func := SQuery.argument arguments 1 in
  if eq_undefined on || negb (String.eqb (typeof on) "string")
  then throw (Thrown (VStr "事件类型不合法..."))
  else if eq_undefined func || negb (String.eqb (typeof func) "function")
  then throw (Thrown (VStr "传入的事件回调不合法..."))
  else ret VUndefined.

(** [on(on, func, bool)]; the test [if (addEventListener)] reads the
    function of that name of the window, which a browser defines. *)
Definition on (this : SQuery.query) (arguments : list value) : M value :=
  let on := SQuery.argument arguments 0 in
  let func := SQuery.argument arguments 1 in
  let bool := SQuery.argument arguments 2 in
  let dom := SQuery.item this 0 in
  isEvent this [on; func] >>
  addEventListener dom (SQuery.string_of on) func bool >>
  ret (SQuery.as_value this).

(** [this.on(k.on, k.func, k.bool)] *)
Definition on_entry (this : SQuery.query) (k : value) : M unit :=
  let* o := get_member k "on" in
  let* f := get_member k "func" in
  let* b := get_member k "bool" in
  on this [o; f; b] >> ret tt.

(** [bind(eventObj)] *)
Definition bind (this : SQuery.query) (arguments : list value) : M value :=
  let eventObj := SQuery.argument arguments 0 in
  if String.eqb (typeof eventObj) "string"
  then throw (Thrown (VStr "绑定单个事件请使用 .on() 方法"))
  else
    (if instanceof_Array eventObj
     then for_each (on_entry this) (SQuery.array_entries eventObj)
     else if instanceof_Object eventObj
     then on_entry this eventObj
     else ret tt) >>
    ret (SQuery.as_value this).

(** The loop of [parentAll]; the source loops while the parent is not the
    document, and [fuel] bounds the rounds here. *)
Fixpoint parentAll_loop (fuel : nat) (dom : value) (parentArr : list value)
    : M (list value) :=
  match fuel with
  | O => unsupported
  | S fuel' =>
      let* p := get_parentNode dom in
      let* at_document := supported (eq_document p) in
      if negb at_document
      then let* d := get_parentNode dom in
           parentAll_loop fuel' d (parentArr ++ [d])
      else ret parentArr
  end.

(** [parentAll()], with the bound on the rounds of its loop *)
Definition parentAll (fuel : nat) (this : SQuery.query)
    (arguments : list value) : M value :=
  let dom := SQuery.item this 0 in
  let* parentArr := parentAll_loop fuel dom [] in
  let* q := SQuery.Query (VArray parentArr) VNull in
  ret (SQuery.as_value q).

(** [children(selector)] *)
Definition children (this : SQuery.query) (arguments : list value) : M value :=
  let selector := SQuery.argument arguments 0 in
  let dom := SQuery.item this 0 in
  if negb (eq_undefined selector) && String.eqb (typeof selector) "string"
  then
    let* domChild := querySelectorAll dom (SQuery.string_of selector) in
    let* q := SQuery.Query (VList (map VNode domChild)) selector in
    ret (SQuery.as_value q)
  else if negb (eq_undefined selector) && String.eqb (typeof selector) "number"
  then
    let* all := get_children dom in
    let* n := supported (to_number selector) in
    let domChild := keep_index all n in
    if (length domChild =? 0)%nat
    then throw (Thrown (VStr "目标子元素不存在..."))
    else let* q := SQuery.Query (VArray (map VNode domChild)) selector in
         ret (SQuery.as_value q)
  else
    let* all := get_children_value dom in
    let* q := SQuery.Query all VNull in
    ret (SQuery.as_value q).

(** [firstChild()] *)
Definition firstChild (this : SQuery.query) (arguments : list value) : M value :=
  let dom := SQuery.item this 0 in
  let* all := get_children dom in
  let firstDom := node_at all (Int 0) in
  let* q := SQuery.Query firstDom VNull in
  ret (SQuery.as_value q).

(** [lastChild()] *)
Definition lastChild (this : SQuery.query) (arguments : list value) : M value :=
  let dom := SQuery.item this 0 in
  let* all := get_children dom in
  let len := Z.of_nat (length all) in
  let* all' := get_children dom in
  let lastDom := node_at all' (Int (len - 1)) in
  let* q := SQuery.Query lastDom VNull in
  ret (SQuery.as_value q).

(** [child(i)]; the length of [dom.children] is read before the index is
    tested. *)
Definition child (this : SQuery.query) (arguments : list value) : M value :=
  let i := SQuery.argument arguments 0 in
  let dom := SQuery.item this 0 in
  let* all := get_children dom in
  let len := Z.of_nat (length all) in
  let* legal := (if String.eqb (typeof i) "number" then supported (ge_lit i 0)
                 else ret false) in
  if legal
  then let* n := supported (to_number i) in
       let* all' := get_children dom in
       let lastDom := node_at all' n in
       let* q := SQuery.Query lastDom VNull in
       ret (SQuery.as_value q)
  else throw (Thrown (VStr "传入索引不合法！")).

(** [dom()]; its first test, [!this instanceof Query], negates [this]
    first and is false for every receiver, so nothing is thrown. *)
Definition dom (this : SQuery.query) (arguments : list value) : M value :=
  let* several := supported (ge_lit (SQuery.length_ this) 2) in
  if several
  then let* n := supported (iterations (SQuery.length_ this)) in
       ret (VArray (map (SQuery.item this) (seq 0 n)))
  else ret (SQuery.item this 0).

End Members.

End Members.

(** ** A page with classes, text nodes and an engine, for the concrete runs *)

Module Fixture.
Import JS Dom.
#[local] Open Scope nat_scope.

(** An engine in which a call answers [undefined] and is counted by the
    object counter, and a listener is recorded as an attribute. *)
#[local] Instance engine : Members.Engine := {|
  Members.call_function := fun _ _ _ s => (Return VUndefined, allocated s);
  Members.add_event_listener := fun s x type _ _ =>
    update_node x (with_attribute ("listener:" +:+ type) "set") s
|}.

(** document > html (1) > body (2) > element 3 (class "a b"), text 6,
    element 4, element 5; every other node is a detached element. *)
Definition page : dom_state :=
  {| nodes := fun x =>
       match x with
       | 0 => mk_node Document None [1] ∅
       | 1 => mk_node Element (Some 0) [2] ∅
       | 2 => mk_node Element (Some 1) [3; 6; 4; 5] ∅
       | 3 => mk_node Element (Some 2) [] {[ "class" := "a b" ]}
       | 4 | 5 => mk_node Element (Some 2) [] ∅
       | 6 => mk_node CharacterData (Some 2) [] ∅
       | _ => mk_node Element None [] ∅
       end;
     next_object := 0 |}.

Definition on_document : SQuery.query :=
  SQuery.mk_query 20 (VNum 1%Z) [VNode 0] VUndefined.
Definition on_html : SQuery.query :=
  SQuery.mk_query 21 (VNum 1%Z) [VNode 1] VUndefined.
Definition on_body : SQuery.query :=
  SQuery.mk_query 22 (VNum 1%Z) [VNode 2] VUndefined.
Definition on_first : SQuery.query :=
  SQuery.mk_query 23 (VNum 1%Z) [VNode 3] VUndefined.
Definition on_three : SQuery.query :=
  SQuery.mk_query 24 (VNum 3%Z) [VNode 3; VNode 4; VNode 5] (VStr "p").
Definition mixed : SQuery.query :=
  SQuery.mk_query 25 (VNum 3%Z) [VNode 3; VNode 0; VNode 4] (VStr "").
Definition empty : SQuery.query :=
  SQuery.mk_query 26 (VNum 0%Z) [] (VStr ".none").

End Fixture.

(** * Proofs *)

Import JS Dom.

(** ** Class tokens: parsing a serialized token set gives it back *)

Section Tokens.

Lemma append_cons (c : ascii) (t u : string) :
  String c t +:+ u = String c (t +:+ u).
Proof. reflexivity. Qed.

Lemma append_empty_r (t : string) : t +:+ "" = t.
Proof. induction t as [|c t IH]; [done |]. by rewrite append_cons, IH. Qed.

Lemma append_snoc (cur : string) (c : ascii) (t : string) :
  (cur +:+ String c "") +:+ t = cur +:+ String c t.
Proof. induction cur as [|d cur IH]; [done |]. by rewrite !append_cons, IH. Qed.

Lemma contains_whitespace_append (t u : string) :
  contains_whitespace (t +:+ u) = contains_whitespace t || contains_whitespace u.
Proof.
  induction t as [|c t IH]; [done |].
  rewrite append_cons. simpl. by rewrite IH, orb_assoc.
Qed.

(** A run of characters without whitespace only extends the token being
    read. *)
Lemma split_whitespace_token (t cur rest : string) :
  contains_whitespace t = false ->
  split_whitespace cur (t +:+ rest) = split_whitespace (cur +:+ t) rest.
Proof.
  revert cur. induction t as [|c t IH]; intros cur Hws.
  - by rewrite append_empty_r.
  - simpl in Hws. apply orb_false_iff in Hws as [Hc Ht].
    rewrite append_cons. simpl. rewrite Hc, IH by done.
    by rewrite append_snoc.
Qed.

(** A space closes the token being read. *)
Lemma split_whitespace_space (cur rest : string) :
  cur ≠ "" ->
  split_whitespace cur (" " +:+ rest) = cur :: split_whitespace "" rest.
Proof. intros Hcur. simpl. by destruct cur. Qed.

Lemma split_whitespace_end (cur : string) :
  cur ≠ "" -> split_whitespace cur "" = [cur].
Proof. intros Hcur. simpl. by destruct cur. Qed.

Lemma split_serialize (set : list string) :
  Forall Spec.token_ok set ->
  split_whitespace "" (serialize_tokens set) = set.
Proof.
  induction 1 as [|t set [Hne Hws] Hset IH]; [done |].
  unfold serialize_tokens in *. destruct set as [|u set].
  - simpl. rewrite <- (append_empty_r t) at 1.
    rewrite split_whitespace_token by done. by apply split_whitespace_end.
  - change (String.concat " " (t :: u :: set))
      with (t +:+ " " +:+ String.concat " " (u :: set)).
    rewrite split_whitespace_token by done.
    rewrite split_whitespace_space by done. by rewrite IH.
Qed.

(** The tokens the splitter produces are legal. *)
Lemma split_whitespace_ok (s cur : string) :
  contains_whitespace cur = false ->
  Forall Spec.token_ok (split_whitespace cur s).
Proof.
  revert cur. induction s as [|c s IH]; intros cur Hcur; simpl.
  - destruct cur; [constructor |]. by repeat constructor.
  - destruct (is_ascii_whitespace c) eqn:Hc.
    + destruct cur; [by apply IH |].
      constructor; [done | by apply IH].
    + apply IH. rewrite contains_whitespace_append. simpl.
      by rewrite Hcur, Hc.
Qed.

Lemma set_append_ok (set : list string) (t : string) :
  Forall Spec.token_ok set -> Spec.token_ok t ->
  Forall Spec.token_ok (set_append set t).
Proof.
  intros Hset Ht. unfold set_append. case_bool_decide; [done |].
  apply Forall_app. by split; [| constructor].
Qed.

Lemma set_append_NoDup (set : list string) (t : string) :
  NoDup set -> NoDup (set_append set t).
Proof.
  intros Hset. unfold set_append. case_bool_decide; [done |].
  apply NoDup_app. split_and!; [done | | apply NoDup_singleton].
  intros u Hu Hin. apply list_elem_of_singleton in Hin. by subst.
Qed.

Lemma set_remove_ok (set : list string) (t : string) :
  Forall Spec.token_ok set -> Forall Spec.token_ok (set_remove set t).
Proof.
  intros Hset. unfold set_remove. apply Forall_forall. intros u Hu.
  apply list_elem_of_filter in Hu as [_ Hu]. by eapply Forall_forall in Hset.
Qed.

Lemma set_remove_NoDup (set : list string) (t : string) :
  NoDup set -> NoDup (set_remove set t).
Proof. intros Hset. unfold set_remove. by apply NoDup_filter. Qed.

Lemma foldl_set_append_ok (l acc : list string) :
  Forall Spec.token_ok acc -> Forall Spec.token_ok l ->
  Forall Spec.token_ok (foldl set_append acc l) ∧
  (NoDup acc -> NoDup (foldl set_append acc l)).
Proof.
  revert acc. induction l as [|t l IH]; intros acc Hacc Hl; simpl; [done |].
  apply Forall_cons in Hl as [Ht Hl].
  destruct (IH (set_append acc t)) as [H1 H2]; [by apply set_append_ok | done |].
  split; [done |]. intros Hnd. by apply H2, set_append_NoDup.
Qed.

Lemma parse_tokens_ok (v : string) :
  Forall Spec.token_ok (parse_tokens v) ∧ NoDup (parse_tokens v).
Proof.
  unfold parse_tokens.
  destruct (foldl_set_append_ok (split_whitespace "" v) []) as [H1 H2];
    [constructor | by apply split_whitespace_ok |].
  split; [done | apply H2, NoDup_nil_2].
Qed.

Lemma foldl_set_append_NoDup (l acc : list string) :
  NoDup (acc ++ l) -> foldl set_append acc l = acc ++ l.
Proof.
  revert acc. induction l as [|t l IH]; intros acc Hnd; simpl.
  - by rewrite app_nil_r.
  - assert (Hfresh : t ∉ acc).
    { apply NoDup_app in Hnd as (_ & Hdisj & _). intros Hin.
      apply (Hdisj t Hin). left. }
    unfold set_append at 2. rewrite bool_decide_eq_false_2 by done.
    rewrite IH; [by rewrite <- app_assoc |]. by rewrite <- app_assoc.
Qed.

(** The round trip the update steps rely on. *)
Lemma parse_serialize (set : list string) :
  Forall Spec.token_ok set -> NoDup set ->
  parse_tokens (serialize_tokens set) = set.
Proof.
  intros Hok Hnd. unfold parse_tokens.
  rewrite split_serialize by done. by apply foldl_set_append_NoDup.
Qed.

End Tokens.

(** ** The DOM calls on an element *)

Section ElementCalls.
Context `{Host}.

Lemma receiver_of_element (s : dom_state) (x : node) :
  is_element s x = true -> receiver_of s (VNode x) = RElement x.
Proof. unfold is_element, receiver_of. by destruct (kind (nodes s x)). Qed.

Lemma check_token_ok (t : string) :
  Spec.token_ok t -> check_token t = ret tt.
Proof.
  intros [Hne Hws]. unfold check_token. rewrite Hws.
  destruct (String.eqb_spec t ""); [done | reflexivity].
Qed.

Lemma is_element_update_node (x y : node) (f : node_data -> node_data)
    (s : dom_state) :
  (∀ d, kind (f d) = kind d) ->
  is_element (update_node x f s) y = is_element s y.
Proof.
  intros Hf. unfold is_element, update_node. simpl.
  case_decide; [subst; by rewrite Hf | done].
Qed.

Lemma is_element_update_tokens (x y : node) (set : list string) (s : dom_state) :
  is_element (update_tokens x set s) y = is_element s y.
Proof.
  unfold update_tokens.
  destruct (attribute s x "class"), set; try done;
    by apply is_element_update_node.
Qed.

Lemma attribute_update_node (x : node) (k v : string) (s : dom_state) :
  attribute (update_node x (with_attribute k v) s) x k = Some v.
Proof.
  unfold attribute, update_node. simpl. rewrite decide_True by done.
  simpl. apply lookup_insert_eq.
Qed.



(** After the update steps the class of [x] parses to the set written. *)
Lemma class_tokens_update_tokens (x : node) (set : list string) (s : dom_state) :
  Forall Spec.token_ok set -> NoDup set ->
  class_tokens (update_tokens x set s) x = set.
Proof.
  intros Hok Hnd. unfold update_tokens.
  destruct (attribute s x "class") as [v|] eqn:Hv.
  - unfold class_tokens. rewrite attribute_update_node. simpl.
    by apply parse_serialize.
  - destruct set as [|t set].
    + unfold class_tokens. by rewrite Hv.
    + unfold class_tokens. rewrite attribute_update_node. simpl.
      by apply parse_serialize.
Qed.

Lemma class_tokens_ok (s : dom_state) (x : node) :
  Forall Spec.token_ok (class_tokens s x) ∧ NoDup (class_tokens s x).
Proof. apply parse_tokens_ok. Qed.

Lemma class_tokens_add_token (x : node) (t : string) (s : dom_state) :
  Spec.token_ok t ->
  class_tokens (add_token x t s) x = set_append (class_tokens s x) t.
Proof.
  intros Ht. destruct (class_tokens_ok s x) as [Hok Hnd].
  apply class_tokens_update_tokens;
    [by apply set_append_ok | by apply set_append_NoDup].
Qed.

Lemma class_tokens_remove_token (x : node) (t : string) (s : dom_state) :
  class_tokens (remove_token x t s) x = set_remove (class_tokens s x) t.
Proof.
  destruct (class_tokens_ok s x) as [Hok Hnd].
  apply class_tokens_update_tokens;
    [by apply set_remove_ok | by apply set_remove_NoDup].
Qed.


Lemma classList_add_element (s : dom_state) (x : node) (t : string) :
  is_element s x = true -> Spec.token_ok t ->
  classList_add (VNode x) (VStr t) s = (Return tt, add_token x t s).
Proof.
  intros Hx Ht. unfold classList_add, bind, get_state.
  rewrite receiver_of_element by done. simpl.
  by rewrite check_token_ok.
Qed.

Lemma classList_remove_element (s : dom_state) (x : node) (t : string) :
  is_element s x = true -> Spec.token_ok t ->
  classList_remove (VNode x) (VStr t) s = (Return tt, remove_token x t s).
Proof.
  intros Hx Ht. unfold classList_remove, bind, get_state.
  rewrite receiver_of_element by done. simpl.
  by rewrite check_token_ok.
Qed.

Lemma setAttribute_element (s : dom_state) (x : node) (name value : value)
    (n v : string) :
  is_element s x = true ->
  to_string name = Some n -> to_string value = Some v ->
  valid_attribute_name n = true ->
  setAttribute (VNode x) name value s
  = (Return tt, update_node x (with_attribute (lower_case n) v) s).
Proof.
  intros Hx Hn Hv Hvalid. unfold setAttribute, bind, get_state.
  rewrite receiver_of_element by done.
  unfold dom_string. rewrite Hn, Hv. simpl. by rewrite Hvalid.
Qed.

Lemma style_setProperty_element (s : dom_state) (x : node) (name value : value)
    (n v : string) :
  is_element s x = true ->
  to_string name = Some n -> to_string value = Some v ->
  style_setProperty (VNode x) name value s
  = (Return tt,
     style_set_property s x n (match value with VNull => "" | _ => v end)).
Proof.
  intros Hx Hn Hv. unfold style_setProperty, bind, get_state.
  rewrite receiver_of_element by done.
  unfold dom_string, dom_string_null_empty. rewrite Hn. simpl.
  destruct value; try done; by rewrite Hv.
Qed.

(** [name == "string" || "number"] is truthy whatever the comparison
    gives. *)
Lemma isArg_true (e : bool) :
  (if truthy (js_or (VBool e) (VStr "number")) then true else false) = true.
Proof. by destruct e. Qed.

End ElementCalls.

(** ** [addClass] and [delClass] apply every leaf string *)

Section LeafWise.
Context `{Host}.

(** The two methods differ only in the DOMTokenList call; [call] is that
    call and [step] its effect on an element. *)
Variable call : value -> value -> M unit.
Variable step : node -> string -> dom_state -> dom_state.
Hypothesis call_element : ∀ s x t,
  is_element s x = true -> Spec.token_ok t ->
  call (VNode x) (VStr t) s = (Return tt, step x t s).
Hypothesis step_element : ∀ x t s y,
  is_element (step x t s) y = is_element s y.

Lemma is_element_steps (x y : node) (ts : list string) (s : dom_state) :
  is_element (foldl (fun s t => step x t s) s ts) y = is_element s y.
Proof.
  revert s. induction ts as [|t ts IH]; intros s; simpl; [done |].
  by rewrite IH, step_element.
Qed.

Lemma typeof_string (v : value) :
  String.eqb (typeof v) "string" = true -> v = VStr (SQuery.string_of v).
Proof. by destruct v. Qed.

Lemma for_each_entries (x : node) (l : list value) (s : dom_state) :
  is_element s x = true ->
  Forall (fun e => String.eqb (typeof e) "string" = true) l ->
  Forall Spec.token_ok (map SQuery.string_of l) ->
  for_each (call (VNode x)) l s
  = (Return tt, foldl (fun s t => step x t s) s (map SQuery.string_of l)).
Proof.
  revert s. induction l as [|e l IH]; intros s Hx Hty Hok; [done |].
  apply Forall_cons in Hty as [He Hty]. simpl in Hok.
  apply Forall_cons in Hok as [Hok1 Hok].
  simpl. unfold bind. rewrite (typeof_string e He) at 1.
  rewrite call_element by done.
  apply IH; [by rewrite step_element | done | done].
Qed.

Lemma for_each_arguments (x : node) (arguments : list value) (s : dom_state) :
  is_element s x = true ->
  Forall Spec.class_argument arguments ->
  Forall Spec.token_ok (Spec.leaves arguments) ->
  for_each (fun v =>
              if String.eqb (typeof v) "string" then call (VNode x) v
              else if instanceof_Array v
              then for_each (call (VNode x)) (SQuery.array_entries v)
              else ret tt) arguments s
  = (Return tt, foldl (fun s t => step x t s) s (Spec.leaves arguments)).
Proof.
  revert s. induction arguments as [|v vs IH]; intros s Hx Hargs Hok; [done |].
  apply Forall_cons in Hargs as [Hv Hargs].
  unfold Spec.leaves in Hok. simpl in Hok.
  apply Forall_app in Hok as [Hokv Hok].
  unfold Spec.leaves. simpl. rewrite foldl_app. unfold bind.
  destruct v as [| | | |t| | |l| | |]; try done; simpl.
  - apply Forall_cons in Hokv as [Ht _].
    rewrite call_element by done.
    apply IH; [by rewrite step_element | done | done].
  - rewrite for_each_entries by done.
    apply IH; [by rewrite is_element_steps | done | done].
Qed.

End LeafWise.

Section ClassMethods.
Context `{Host}.

Lemma is_element_add_token (x : node) (t : string) (s : dom_state) (y : node) :
  is_element (add_token x t s) y = is_element s y.
Proof. apply is_element_update_tokens. Qed.

Lemma is_element_remove_token (x : node) (t : string) (s : dom_state) (y : node) :
  is_element (remove_token x t s) y = is_element s y.
Proof. apply is_element_update_tokens. Qed.

Lemma class_tokens_add_tokens (x : node) (ts : list string) (s : dom_state) :
  Forall Spec.token_ok ts ->
  class_tokens (foldl (fun s t => add_token x t s) s ts) x
  = foldl set_append (class_tokens s x) ts.
Proof.
  revert s. induction ts as [|t ts IH]; intros s Hok; simpl; [done |].
  apply Forall_cons in Hok as [Ht Hok].
  by rewrite IH, class_tokens_add_token.
Qed.

Lemma class_tokens_remove_tokens (x : node) (ts : list string) (s : dom_state) :
  class_tokens (foldl (fun s t => remove_token x t s) s ts) x
  = foldl set_remove (class_tokens s x) ts.
Proof.
  revert s. induction ts as [|t ts IH]; intros s; simpl; [done |].
  by rewrite IH, class_tokens_remove_token.
Qed.

(** [addClass] with at least one argument, each a string or an array of
    strings, appends the leaf strings one after the other. *)
Lemma addClass_leaves (this : SQuery.query) (x : node)
    (arguments : list value) (s : dom_state) :
  SQuery.item this 0 = VNode x ->
  is_element s x = true ->
  arguments ≠ [] ->
  Forall Spec.class_argument arguments ->
  Forall Spec.token_ok (Spec.leaves arguments) ->
  SQuery.addClass this arguments s
  = (Return (SQuery.as_value this),
     foldl (fun s t => add_token x t s) s (Spec.leaves arguments)).
Proof.
  intros Hitem Hx Hne Hargs Hok. unfold SQuery.addClass. rewrite Hitem.
  destruct arguments as [|v vs]; [done |].
  replace (length (v :: vs) <=? 0)%nat with false by done.
  destruct ((length (v :: vs) =? 1)%nat
            && String.eqb (typeof (SQuery.argument (v :: vs) 0)) "string")
    eqn:Hone.
  - apply andb_true_iff in Hone as [Hlen Hty].
    destruct vs; [| done]. simpl in Hty.
    rewrite (typeof_string v Hty) in *. unfold bind.
    apply Forall_cons in Hok as [Ht _].
    unfold SQuery.argument. simpl.
    by rewrite classList_add_element.
  - unfold bind.
    rewrite (for_each_arguments classList_add add_token) ; try done.
    + intros. by apply classList_add_element.
    + intros. apply is_element_add_token.
Qed.

(** [delClass] with at least one argument removes the leaf strings one
    after the other. *)
Lemma delClass_leaves (this : SQuery.query) (x : node)
    (arguments : list value) (s : dom_state) :
  SQuery.item this 0 = VNode x ->
  is_element s x = true ->
  arguments ≠ [] ->
  Forall Spec.class_argument arguments ->
  Forall Spec.token_ok (Spec.leaves arguments) ->
  SQuery.delClass this arguments s
  = (Return (SQuery.as_value this),
     foldl (fun s t => remove_token x t s) s (Spec.leaves arguments)).
Proof.
  intros Hitem Hx Hne Hargs Hok. unfold SQuery.delClass. rewrite Hitem.
  destruct arguments as [|v vs]; [done |].
  replace (length (v :: vs) <=? 0)%nat with false by done.
  destruct ((length (v :: vs) =? 1)%nat
            && String.eqb (typeof (SQuery.argument (v :: vs) 0)) "string")
    eqn:Hone.
  - apply andb_true_iff in Hone as [Hlen Hty].
    destruct vs; [| done]. simpl in Hty.
    rewrite (typeof_string v Hty) in *. unfold bind.
    apply Forall_cons in Hok as [Ht _].
    unfold SQuery.argument. simpl.
    by rewrite classList_remove_element.
  - unfold bind.
    rewrite (for_each_arguments classList_remove remove_token) ; try done.
    + intros. by apply classList_remove_element.
    + intros. apply is_element_remove_token.
Qed.

End ClassMethods.

(** ** The constructor *)

Section Constructor.
Context `{Host}.


Lemma map_lookup_seq (l : list value) (k : nat) (pre : list value) :
  length pre = k ->
  map (fun i => default VUndefined ((pre ++ l) !! i)) (seq k (length l)) = l.
Proof.
  revert k pre. induction l as [|v l IH]; intros k pre Hk; [done |].
  simpl. f_equal.
  - rewrite lookup_app_r by lia. by replace (k - length pre)%nat with 0%nat by lia.
  - rewrite (cons_middle v pre l), app_assoc. apply IH.
    rewrite length_app. simpl. lia.
Qed.

Lemma map_get_index_array (l : list value) :
  map (get_index (VArray l)) (seq 0 (length l)) = l.
Proof. apply (map_lookup_seq l 0 []). done. Qed.

Lemma map_get_index_list (l : list value) :
  map (get_index (VList l)) (seq 0 (length l)) = l.
Proof. apply (map_lookup_seq l 0 []). done. Qed.


(** Any object with a numeric length is copied index by index. *)
Lemma Query_collection (c : value) (n : Z) (selector : value) (s : dom_state) :
  typeof c = "object" ->
  get_length c = Some (VNum n) ->
  SQuery.Query c selector s
  = (Return (SQuery.mk_query (next_object s) (VNum n)
               (map (get_index c) (seq 0 (Z.to_nat n)))
               (js_or selector (VStr ""))),
     allocated s).
Proof.
  intros Hobject Hlen.
  assert (Htruthy : truthy c = true) by (by destruct c).
  unfold SQuery.Query, bind, SQuery.new_object.
  by rewrite Htruthy, Hobject, Hlen.
Qed.

End Constructor.

(** ** The batch dispatcher *)

Section Dispatcher.
Context `{Host}.
Variable member : string -> SQuery.method.




(** A case name is an own property of [Query.prototype]. *)
Lemma case_of_prototype (func : string) (m : SQuery.method) :
  SQuery.case_of member func = Some m -> func ∈ SQuery.Query_prototype.
Proof.
  unfold SQuery.case_of. intros Hm.
  apply fmap_Some in Hm as ([name m'] & Hfind & _).
  apply find_some in Hfind as [Hin Heq]. simpl in Heq.
  apply String.eqb_eq in Heq. subst name.
  apply (in_map fst) in Hin. unfold SQuery.cases in Hin. simpl in Hin.
  repeat (destruct Hin as [<- | Hin];
          [apply (bool_decide_unpack _); by vm_compute |]).
  done.
Qed.

End Dispatcher.

Section DispatcherResults.
Context `{Host}.
Variable member : string -> SQuery.method.

Lemma bind_array_result (c : M (list value)) (s s' : dom_state) (v : value) :
  bind c (fun dom => ret (VArray dom)) s = (Return v, s') ->
  ∃ dom, v = VArray dom ∧ c s = (Return dom, s').
Proof.
  unfold bind, ret. destruct (c s) as [[dom|e|] s1]; try done.
  intros [= <- <-]. by exists dom.
Qed.


End DispatcherResults.

Section TokenMembership.
Context `{Host}.




End TokenMembership.

(** ** The claims about [$.forQuery] *)

(** C1 (what the code does where the claim expects an error): for every
    Query collection and every name that is not an own property of
    [Query.prototype], [$.forQuery] raises nothing; it returns the empty
    array, and the state, so every element, is as it was before. The
    [throw] of the switch is only reached by names the prototype has. *)
Theorem forQuery_unknown_name_returns_empty `{Host}
    (member : string -> SQuery.method) (q : SQuery.query) (func : string)
    (arg : list value) (s : dom_state) :
  func ∉ SQuery.Query_prototype ->
  SQuery.forQuery member (SQuery.as_value q) func arg s
  = (Return (VArray []), s).
Proof.
  intros Hfunc. unfold SQuery.forQuery, SQuery.proto_hasOwnProperty.
  simpl. rewrite bool_decide_eq_false_2 by done. reflexivity.
Qed.

Lemma forQuery_unknown_name_returns_empty_witness :
  ("doesNotExist" ∉ SQuery.Query_prototype) ∧
  SQuery.forQuery (H := Sample.host) Sample.member
    (SQuery.as_value Sample.trio) "doesNotExist" [] Sample.page
  = (Return (VArray []), Sample.page).
Proof.
  assert (Hname : "doesNotExist" ∉ SQuery.Query_prototype).
  { apply (bool_decide_unpack _). vm_compute. exact I. }
  split; [exact Hname |].
  exact (forQuery_unknown_name_returns_empty Sample.member Sample.trio
           "doesNotExist" [] Sample.page Hname).
Defined.

(** The members of the prototype that the switch has no case for
    ([each], [isEvent], [child], [dom]) reach its [default]. *)
Lemma forQuery_uncased_member_throws `{Host}
    (member : string -> SQuery.method) (q : SQuery.query) (func : string)
    (arg : list value) (s : dom_state) :
  func ∈ SQuery.Query_prototype ->
  SQuery.case_of member func = None ->
  SQuery.forQuery member (SQuery.as_value q) func arg s
  = (Throw (Thrown (VStr "方法不存在！")), s).
Proof.
  intros Hfunc Hcase. unfold SQuery.forQuery, SQuery.proto_hasOwnProperty.
  simpl. rewrite bool_decide_eq_true_2 by done. unfold bind. simpl.
  by rewrite Hcase.
Qed.

Example forQuery_child_throws :
  SQuery.forQuery (H := Sample.host) Sample.member
    (SQuery.as_value Sample.trio) "child" [VNum 0] Sample.page
  = (Throw (Thrown (VStr "方法不存在！")), Sample.page).
Proof. reflexivity. Qed.

(** C10: for every collection and every name that is a case of the
    switch of [$.forQuery], the call ends the way its loop ends, and
    when the loop completes the value returned is the array of the
    results it collected: every value it returns is an array; the
    comparison of that array with a fresh empty array is false, so the
    error string is never returned; on an empty Query collection the call
    returns the empty array. *)
Theorem forQuery_returns_the_collected_array `{Host}
    (member : string -> SQuery.method) (Querys : value) (func : string)
    (m : SQuery.method) (arg : list value) (s : dom_state) :
  SQuery.case_of member func = Some m ->
  SQuery.forQuery member Querys func arg s
  = (let* own := SQuery.proto_hasOwnProperty Querys func in
     let* dom := (if own
                  then let* len := or_type_error (get_length Querys) in
                       let* n := supported (iterations len) in
                       SQuery.forQuery_loop m Querys arg (seq 0 n) []
                  else ret []) in
     ret (VArray dom)) s
  ∧ (∀ v s', SQuery.forQuery member Querys func arg s = (Return v, s') ->
             ∃ dom, v = VArray dom)
  ∧ (∀ s', SQuery.forQuery member Querys func arg s
           ≠ (Return (VStr "Error：出现意外错误!"), s'))
  ∧ (∀ q, SQuery.length_ q = VNum 0 ->
          SQuery.forQuery member (SQuery.as_value q) func arg s
          = (Return (VArray []), s)).
Proof.
  intros Hcase.
  assert (Heq : SQuery.forQuery member Querys func arg s
    = (let* own := SQuery.proto_hasOwnProperty Querys func in
       let* dom := (if own
                    then let* len := or_type_error (get_length Querys) in
                         let* n := supported (iterations len) in
                         SQuery.forQuery_loop m Querys arg (seq 0 n) []
                    else ret []) in
       ret (VArray dom)) s).
  { unfold SQuery.forQuery. rewrite Hcase. reflexivity. }
  assert (Harray : ∀ v s',
            SQuery.forQuery member Querys func arg s = (Return v, s') ->
            ∃ dom, v = VArray dom).
  { intros v s' Hret. rewrite Heq in Hret. unfold bind at 1 in Hret.
    destruct (SQuery.proto_hasOwnProperty Querys func s) as [[own|e|] s1];
      try done.
    apply bind_array_result in Hret as (dom & Hdom & _). by exists dom. }
  split_and!.
  - exact Heq.
  - exact Harray.
  - intros s' Herr. apply Harray in Herr as (dom & Hdom). discriminate Hdom.
  - intros q Hlen. unfold SQuery.forQuery. rewrite Hcase.
    unfold SQuery.proto_hasOwnProperty, SQuery.as_value.
    rewrite bool_decide_eq_true_2 by by eapply case_of_prototype.
    simpl get_length. rewrite Hlen. reflexivity.
Qed.

Lemma forQuery_returns_the_collected_array_witness :
  SQuery.case_of (H := Sample.host) Sample.member "addClass"
  = Some SQuery.addClass
  ∧ SQuery.forQuery (H := Sample.host) Sample.member
      (SQuery.as_value Sample.nothing) "addClass" [VStr "x"] Sample.page
    = (Return (VArray []), Sample.page).
Proof.
  split; [reflexivity |].
  exact (proj2 (proj2 (proj2
           (forQuery_returns_the_collected_array Sample.member
              (SQuery.as_value Sample.nothing) "addClass"
              SQuery.addClass [VStr "x"] Sample.page eq_refl)))
           Sample.nothing eq_refl).
Defined.

Section BatchAddClass.
Context `{Host}.





End BatchAddClass.



(** ** Reads on an empty handle *)

(** C3 (as the code has it): on every handle of length 0, [text()],
    [html()] and [class()] without argument fail with the TypeError of
    reading a property of the missing [this[0]], while [css()] and
    [attr()] without argument do not fail: they return [undefined]; the
    state is unchanged in all five. *)
Theorem empty_handle_reads `{Host} (id : nat) (selector : value) (s : dom_state) :
  let this := SQuery.mk_query id (VNum 0) [] selector in
  SQuery.text this [] s = (Throw TypeError, s)
  ∧ SQuery.html this [] s = (Throw TypeError, s)
  ∧ SQuery.class this [] s = (Throw TypeError, s)
  ∧ SQuery.css this [] s = (Return VUndefined, s)
  ∧ SQuery.attr this [] s = (Return VUndefined, s).
Proof. by split_and!. Qed.

(** C3, counterexample: [css()] on the handle of no match returns
    [undefined]; it raises nothing. *)
Lemma empty_handle_css_returns_undefined :
  SQuery.css (H := Sample.host) Sample.nothing [] Sample.page
  = (Return VUndefined, Sample.page)
  ∧ ¬ (∃ e s', SQuery.css (H := Sample.host) Sample.nothing [] Sample.page
               = (Throw e, s')).
Proof.
  split; [reflexivity |]. intros (e & s' & Hthrow). discriminate Hthrow.
Qed.

(** ** [removeChild] with an index *)

(** C4 (what the code does where the claim expects a removal): on every
    handle whose first item is a node and for every number [i],
    [removeChild(i)] reads [dom.removeChild[i]] and calls nothing: it
    returns a new handle on the same node and the node store is the one
    it started from, so every child is still a child. *)
Theorem removeChild_index_removes_nothing `{Host} (id : nat)
    (len selector : value) (x : node) (rest : list value) (i : Z)
    (s : dom_state) :
  let this := SQuery.mk_query id len (VNode x :: rest) selector in
  SQuery.removeChild this [VNum i] s
  = (Return (SQuery.as_value (Spec.single s x)), allocated s)
  ∧ nodes (allocated s) = nodes s
  ∧ children (allocated s) x = children s x.
Proof.
  split_and!; [| done | done].
  unfold SQuery.removeChild, SQuery.item, SQuery.argument. simpl.
  unfold bind at 1, removeChild_member, bind at 1, get_state.
  unfold receiver_of. by destruct (kind (nodes s x)).
Qed.

(** C4, at the failing input: after [removeChild(0)] on the body of the
    sample page its first child is still its first child. *)
Lemma removeChild_index_keeps_first_child :
  ∃ s', SQuery.removeChild (H := Sample.host) Sample.body [VNum 0] Sample.page
        = (Return (VQuery 0 (VNum 1) [VNode 2%nat] VUndefined), s')
        ∧ children Sample.page 2%nat = [3; 4; 5]%nat
        ∧ children s' 2%nat = [3; 4; 5]%nat
        ∧ parentNode (nodes s' 3%nat) = Some 2%nat.
Proof. eexists. by split_and!. Qed.

(** ** The two-argument write of [css] and [attr] *)

(** C5 (what the code does where the claim expects a check): on every
    handle whose first item is an element, the two-argument form writes
    whatever the second argument is; [isArg] is always true, so a
    boolean, [undefined] or an array is converted to a string and
    committed like a string or a number would be. *)
Theorem two_argument_write_is_unchecked `{Host} (this : SQuery.query)
    (x : node) (n : string) (v : value) (str : string) (s : dom_state) :
  SQuery.item this 0 = VNode x ->
  is_element s x = true ->
  to_string v = Some str ->
  valid_attribute_name n = true ->
  SQuery.attr this [VStr n; v] s
  = (Return (SQuery.as_value this),
     update_node x (with_attribute (lower_case n) str) s)
  ∧ SQuery.css this [VStr n; v] s
    = (Return (SQuery.as_value this),
       style_set_property s x n (match v with VNull => "" | _ => str end)).
Proof.
  intros Hitem Hx Hstr Hname.
  unfold SQuery.attr, SQuery.css. rewrite Hitem.
  unfold SQuery.argument. simpl.
  split; unfold bind at 1; unfold ret at 1; rewrite isArg_true; unfold bind.
  - by rewrite (setAttribute_element s x (VStr n) v n str).
  - by rewrite (style_setProperty_element s x (VStr n) v n str).
Qed.

Lemma two_argument_write_is_unchecked_witness :
  SQuery.item Sample.leaf 0 = VNode 3%nat
  ∧ is_element Sample.page 3%nat = true
  ∧ to_string (VBool true) = Some "true"
  ∧ valid_attribute_name (Host := Sample.host) "title" = true
  ∧ SQuery.attr (H := Sample.host) Sample.leaf [VStr "title"; VBool true]
      Sample.page
    = (Return (SQuery.as_value Sample.leaf),
       update_node 3%nat (with_attribute "title" "true") Sample.page).
Proof.
  split; [reflexivity |]. split; [reflexivity |]. split; [reflexivity |].
  split; [reflexivity |].
  exact (proj1 (two_argument_write_is_unchecked (H := Sample.host)
                  Sample.leaf 3%nat "title" (VBool true) "true" Sample.page
                  eq_refl eq_refl eq_refl eq_refl)).
Defined.

(** ** [parent] with a number *)

Section ParentWalk.
Context `{Host}.





End ParentWalk.



(** Outside the document the walk runs into [null] before it meets the
    document, and the next read of [parentNode] is a TypeError: here on a
    detached element. *)
Example parent_number_detached :
  parentNode (nodes Sample.page 9%nat) = None
  ∧ SQuery.parent (H := Sample.host)
      (SQuery.mk_query 11 (VNum 1) [VNode 9%nat] VUndefined) [VNum 2]
      Sample.page
    = (Throw TypeError, Sample.page).
Proof. by split. Qed.

(** ** Classes as a set *)

(** C7: on every handle whose first item is an element without classes,
    [addClass(a, b)] followed by [delClass(a)] leaves exactly the class
    [b], and so does [addClass(b, a)] followed by [delClass(a)], for legal
    distinct class names [a] and [b]; with several arguments, each a
    string or an array of strings, [addClass] appends and [delClass]
    removes every leaf string, one by one. *)
Theorem addClass_delClass_set (this : SQuery.query) (x : node)
    (s : dom_state) :
  SQuery.item this 0 = VNode x ->
  is_element s x = true ->
  (∀ a b, class_tokens s x = [] ->
          Spec.token_ok a -> Spec.token_ok b -> a ≠ b ->
          (∃ s', (SQuery.addClass this [VStr a; VStr b] >>
                  SQuery.delClass this [VStr a]) s
                 = (Return (SQuery.as_value this), s')
                 ∧ class_tokens s' x = [b])
          ∧ (∃ s', (SQuery.addClass this [VStr b; VStr a] >>
                    SQuery.delClass this [VStr a]) s
                   = (Return (SQuery.as_value this), s')
                   ∧ class_tokens s' x = [b]))
  ∧ (∀ arguments,
       arguments ≠ [] ->
       Forall Spec.class_argument arguments ->
       Forall Spec.token_ok (Spec.leaves arguments) ->
       (∃ s', SQuery.addClass this arguments s
              = (Return (SQuery.as_value this), s')
              ∧ class_tokens s' x
                = foldl set_append (class_tokens s x) (Spec.leaves arguments))
       ∧ (∃ s', SQuery.delClass this arguments s
                = (Return (SQuery.as_value this), s')
                ∧ class_tokens s' x
                  = foldl set_remove (class_tokens s x) (Spec.leaves arguments))).
Proof.
  intros Hitem Hx. split.
  - intros a b Hnone Ha Hb Hab.
    assert (Hadd : ∀ t u, Spec.token_ok t -> Spec.token_ok u -> t ≠ u ->
              ∃ s1, SQuery.addClass this [VStr t; VStr u] s
                    = (Return (SQuery.as_value this), s1)
                    ∧ is_element s1 x = true
                    ∧ class_tokens s1 x = [t; u]).
    { intros t u Ht Hu Htu.
      assert (Hstrings : Forall Spec.class_argument [VStr t; VStr u])
        by (by repeat constructor).
      assert (Hleaves : Forall Spec.token_ok (Spec.leaves [VStr t; VStr u]))
        by (constructor; [done | constructor; [done | constructor]]).
      eexists. split; [by apply (addClass_leaves this x) |]. split.
      - simpl. by rewrite !is_element_add_token.
      - rewrite class_tokens_add_tokens by done.
        rewrite Hnone. simpl. unfold set_append at 1. simpl.
        rewrite bool_decide_eq_false_2; [done |].
        intros Hin. apply list_elem_of_singleton in Hin. by subst. }
    assert (Hdel : ∀ s1, is_element s1 x = true ->
              SQuery.delClass this [VStr a] s1
              = (Return (SQuery.as_value this), remove_token x a s1)).
    { intros s1 Hs1. rewrite (delClass_leaves this x); try done.
      - by constructor.
      - by constructor. }
    split.
    + destruct (Hadd a b) as (s1 & Hs1 & Hel & Htok); try done.
      exists (remove_token x a s1). unfold bind. rewrite Hs1, Hdel by done.
      split; [done |]. rewrite class_tokens_remove_token, Htok.
      unfold set_remove. rewrite filter_cons_False by (by intros ?).
      by rewrite filter_cons_True, filter_nil by (by intros ->).
    + destruct (Hadd b a) as (s1 & Hs1 & Hel & Htok); try done.
      exists (remove_token x a s1). unfold bind. rewrite Hs1, Hdel by done.
      split; [done |]. rewrite class_tokens_remove_token, Htok.
      unfold set_remove. rewrite filter_cons_True by (by intros ->).
      by rewrite filter_cons_False, filter_nil by (by intros ?).
  - intros arguments Hne Hargs Hok. split.
    + eexists. split; [by apply (addClass_leaves this x) |].
      by apply class_tokens_add_tokens.
    + eexists. split; [by apply (delClass_leaves this x) |].
      by apply class_tokens_remove_tokens.
Qed.

Lemma addClass_delClass_set_witness :
  SQuery.item Sample.leaf 0 = VNode 3%nat
  ∧ is_element Sample.page 3%nat = true
  ∧ class_tokens Sample.page 3%nat = []
  ∧ ∃ s', (SQuery.addClass Sample.leaf [VStr "a"; VStr "b"] >>
           SQuery.delClass Sample.leaf [VStr "a"]) Sample.page
          = (Return (SQuery.as_value Sample.leaf), s')
          ∧ class_tokens s' 3%nat = ["b"].
Proof.
  split; [reflexivity |]. split; [reflexivity |]. split; [reflexivity |].
  refine (proj1 (proj1 (addClass_delClass_set Sample.leaf
                          3%nat Sample.page eq_refl eq_refl)
                   "a" "b" eq_refl _ _ _)).
  - split; [discriminate | reflexivity].
  - split; [discriminate | reflexivity].
  - discriminate.
Defined.

(** ** The entry point on a collection *)

(** C8 (as the code has it): for every object with a numeric length of
    at least 1, [$] returns a new handle whose length is that length and
    whose items are the positional entries of the object, in order and
    unchanged, so for an Array or a host list the items are its entries;
    an object whose length is 0 is refused with the error for an illegal
    argument, because the entry point only takes a collection whose
    length is at least 1. *)
Theorem dollar_collection `{Host} (c : value) (n : Z) (s : dom_state) :
  typeof c = "object" ->
  get_length c = Some (VNum n) ->
  (1 <= n ->
   SQuery.dollar c s
   = (Return (SQuery.mk_query (next_object s) (VNum n)
                (map (get_index c) (seq 0 (Z.to_nat n))) (VStr "")),
      allocated s))
  ∧ (n < 1 ->
     SQuery.dollar c s
     = (Throw (Thrown (VStr "请传入合法 selector 字符和 dom 对象！")), s))
  ∧ (∀ l, c = VArray l ∨ c = VList l ->
          map (get_index c) (seq 0 (Z.to_nat n)) = l).
Proof.
  intros Hobject Hlen. split_and!.
  - intros Hn. unfold SQuery.dollar. rewrite Hobject, Hlen. simpl.
    unfold bind at 1 2 3 4. unfold ret, supported, ge_lit. simpl.
    replace (1 <=? n) with true by (symmetry; by apply Z.leb_le).
    by apply Query_collection.
  - intros Hn. unfold SQuery.dollar. rewrite Hobject, Hlen. simpl.
    unfold bind, ret, supported, ge_lit. simpl.
    by replace (1 <=? n) with false by (symmetry; by apply Z.leb_gt).
  - intros l [-> | ->]; simpl in Hlen; injection Hlen as <-;
      rewrite Nat2Z.id; [apply map_get_index_array | apply map_get_index_list].
Qed.

Lemma dollar_collection_witness :
  typeof (VList [VNode 3%nat; VNode 4%nat]) = "object"
  ∧ get_length (VList [VNode 3%nat; VNode 4%nat]) = Some (VNum 2)
  ∧ 1 <= 2
  ∧ SQuery.dollar (H := Sample.host) (VList [VNode 3%nat; VNode 4%nat])
      Sample.page
    = (Return (SQuery.mk_query 0 (VNum 2) [VNode 3%nat; VNode 4%nat] (VStr "")),
       allocated Sample.page).
Proof.
  split; [reflexivity |]. split; [reflexivity |]. split; [lia |].
  refine (proj1 (dollar_collection (H := Sample.host)
                   (VList [VNode 3%nat; VNode 4%nat]) 2 Sample.page
                   eq_refl eq_refl) _).
  lia.
Defined.

(** C8, counterexample: the empty Array has a numeric length, and [$]
    throws on it instead of returning a handle of length 0. *)
Lemma dollar_empty_collection_throws :
  SQuery.dollar (H := Sample.host) (VArray []) Sample.page
  = (Throw (Thrown (VStr "请传入合法 selector 字符和 dom 对象！")), Sample.page)
  ∧ get_length (VArray []) = Some (VNum 0)
  ∧ ¬ (∃ q s', SQuery.dollar (H := Sample.host) (VArray []) Sample.page
               = (Return q, s')).
Proof.
  split; [reflexivity |]. split; [reflexivity |].
  intros (q & s' & Hq). discriminate Hq.
Qed.

(** ** [delClass] without argument *)

(** C9: on every handle whose first item is an element, [delClass()]
    sets the class attribute of that element to the empty string, which
    leaves it no class name, and returns the handle it was called on. *)
Theorem delClass_no_argument_clears (this : SQuery.query) (x : node)
    (s : dom_state) :
  SQuery.item this 0 = VNode x ->
  is_element s x = true ->
  SQuery.delClass this [] s
  = (Return (SQuery.as_value this), update_node x (with_attribute "class" "") s)
  ∧ attribute (update_node x (with_attribute "class" "") s) x "class" = Some ""
  ∧ class_tokens (update_node x (with_attribute "class" "") s) x = [].
Proof.
  intros Hitem Hx. split_and!.
  - unfold SQuery.delClass. rewrite Hitem. simpl.
    unfold bind, set_className, bind, get_state.
    by rewrite receiver_of_element.
  - apply attribute_update_node.
  - unfold class_tokens. by rewrite attribute_update_node.
Qed.

Lemma delClass_no_argument_clears_witness :
  SQuery.item Sample.leaf 0 = VNode 3%nat
  ∧ is_element Sample.page 3%nat = true
  ∧ SQuery.delClass Sample.leaf [] Sample.page
    = (Return (SQuery.as_value Sample.leaf),
       update_node 3%nat (with_attribute "class" "") Sample.page).
Proof.
  split; [reflexivity |]. split; [reflexivity |].
  exact (proj1 (delClass_no_argument_clears Sample.leaf
                  3%nat Sample.page eq_refl eq_refl)).
Defined.

(** * Further properties of the library *)

(** ** The entry point and the constructor *)

(** X1: [$] refuses every argument that is neither an object nor a
    string (a number, a boolean, [undefined], a function) with the
    library's own error and leaves the state alone; [null] is an object
    for [typeof], and on it the read of [null.length] raises a TypeError
    before that error is reached. *)
Theorem dollar_illegal_argument `{Host} (v : value) (s : dom_state) :
  typeof v ≠ "object" ->
  typeof v ≠ "string" ->
  SQuery.dollar v s
  = (Throw (Thrown (VStr "请传入合法 selector 字符和 dom 对象！")), s)
  ∧ SQuery.dollar VNull s = (Throw TypeError, s).
Proof. intros Hobject Hstring. by destruct v. Qed.

Lemma dollar_illegal_argument_witness :
  typeof (VNum 5) ≠ "object"
  ∧ typeof (VNum 5) ≠ "string"
  ∧ SQuery.dollar (H := Sample.host) (VNum 5) Sample.page
    = (Throw (Thrown (VStr "请传入合法 selector 字符和 dom 对象！")), Sample.page).
Proof.
  assert (H1 : typeof (VNum 5) ≠ "object") by discriminate.
  assert (H2 : typeof (VNum 5) ≠ "string") by discriminate.
  split; [exact H1 |]. split; [exact H2 |].
  exact (proj1 (dollar_illegal_argument (H := Sample.host) (VNum 5)
                  Sample.page H1 H2)).
Defined.

Section Selector.
Context `{Host}.

Lemma js_or_string (sel : string) : js_or (VStr sel) (VStr "") = VStr sel.
Proof. unfold js_or. simpl. by destruct (String.eqb_spec sel "") as [->|]. Qed.

End Selector.

(** X2: for a selector string that the document resolves to the nodes
    [l], [$] returns a new handle whose length is the number of matches,
    zero included, whose items are the matches in order and whose
    selector is the string; a selector the document cannot parse makes
    [$] raise the SyntaxError of [querySelectorAll]. *)
Theorem dollar_selector `{Host} (sel : string) (s : dom_state) :
  (∀ l, select_all s document sel = Some l ->
        SQuery.dollar (VStr sel) s
        = (Return (SQuery.mk_query (next_object s)
                     (VNum (Z.of_nat (length l))) (map VNode l) (VStr sel)),
           allocated s))
  ∧ (select_all s document sel = None ->
     SQuery.dollar (VStr sel) s = (Throw (DOMException "SyntaxError"), s)).
Proof.
  split.
  - intros l Hl. unfold SQuery.dollar. simpl.
    unfold bind, ret, get_state. simpl. rewrite Hl.
    rewrite (Query_collection (VList (map VNode l))
               (Z.of_nat (length (map VNode l)))) by done.
    by rewrite Nat2Z.id, map_get_index_list, length_map, js_or_string.
  - intros Hnone. unfold SQuery.dollar. simpl.
    unfold bind, ret, get_state. simpl. by rewrite Hnone.
Qed.

Lemma dollar_selector_witness :
  select_all (Host := Sample.host) Sample.page document ".none" = Some []
  ∧ SQuery.dollar (H := Sample.host) (VStr ".none") Sample.page
    = (Return (SQuery.mk_query 0 (VNum 0) [] (VStr ".none")),
       allocated Sample.page).
Proof.
  split; [reflexivity |].
  exact (proj1 (dollar_selector (H := Sample.host) ".none" Sample.page)
           [] eq_refl).
Defined.

(** X3: whatever [new Query] is given, when it returns, the handle has a
    fresh identity, the node store is untouched, and a loop over
    [i < this.length] visits exactly the items the handle stores. *)
Theorem Query_length_counts_items (dom selector : value) (s s' : dom_state)
    (q : SQuery.query) :
  SQuery.Query dom selector s = (Return q, s') ->
  s' = allocated s
  ∧ SQuery.identity q = next_object s
  ∧ iterations (SQuery.length_ q) = Some (length (SQuery.items q)).
Proof.
  unfold SQuery.Query, bind, SQuery.new_object, or_type_error, supported,
    ret, throw, unsupported.
  destruct (truthy dom); destruct (get_length dom) as [len|];
    destruct (String.eqb (typeof dom) "object"); simpl; try done;
    try destruct (eq_undefined len); simpl; try done;
    try destruct (iterations len) as [n|] eqn:Hn; simpl; try done;
    intros [= <- <-]; simpl; rewrite ?length_map, ?length_seq;
    repeat split; done || reflexivity.
Qed.

Lemma Query_length_counts_items_witness :
  SQuery.Query (VStr "ab") VNull Sample.page
  = (Return (SQuery.mk_query 0 (VNum 2) [VStr "a"; VStr "b"] (VStr "")),
     allocated Sample.page)
  ∧ iterations (VNum 2) = Some 2%nat.
Proof.
  split; [reflexivity |].
  exact (proj2 (proj2 (Query_length_counts_items (VStr "ab") VNull Sample.page
                         (allocated Sample.page)
                         (SQuery.mk_query 0 (VNum 2) [VStr "a"; VStr "b"]
                            (VStr "")) eq_refl))).
Defined.
